(** * worldpop-stats: the retry ladder of [worldpop_zonal_stats]

    A shallow embedding of [src/worldpop_stats/worldpop_stats.py].

    The script is a sequence of calls into two third-party libraries
    ([ee], [geemap]) wrapped in three nested [try]/[except] blocks.  The
    embedding keeps that shape: the external calls are oracles over an
    abstract world, the Python function is written in a small
    state-and-exception monad, and [print] appends to a list of lines. *)

From Stdlib Require Import String Ascii ZArith NArith List Bool Lia.
From stdpp Require Import base option list strings pretty gmap.

Local Open Scope string_scope.
Local Open Scope Z_scope.
Local Open Scope list_scope.

(** ** Python strings

    A Python [str] is modelled as a Rocq [string] whose characters are the
    code points 0..255. *)

Module PyStr.

Definition dquote : ascii := ascii_of_nat 34.
Definition squote : ascii := "'"%char.
Definition backslash : ascii := "\"%char.
Definition TAB : ascii := ascii_of_nat 9.
Definition LF : ascii := ascii_of_nat 10.
Definition CR : ascii := ascii_of_nat 13.

(** [needle in hay] on strings: some suffix of [hay] starts with
    [needle]. *)
Fixpoint contains (needle hay : string) : bool :=
  String.prefix needle hay
  || match hay with
     | EmptyString => false
     | String _ rest => contains needle rest
     end.

Fixpoint has_char (c : ascii) (s : string) : bool :=
  match s with
  | EmptyString => false
  | String d rest => Ascii.eqb c d || has_char c rest
  end.

Definition hex_digit (n : N) : ascii :=
  match String.get (N.to_nat n) "0123456789abcdef" with
  | Some d => d
  | None => "0"%char
  end.

(** [\xhh], two lower-case hexadecimal digits. *)
Definition hex_escape (c : ascii) : string :=
  let n := N_of_ascii c in
  String backslash
    (String "x" (String (hex_digit (n / 16)) (String (hex_digit (n mod 16)) ""))).

(** [str.isprintable] on the code points below 256: the ASCII graphic
    characters and space, and the Latin-1 ones except the C1 controls,
    the no-break space and the soft hyphen. *)
Definition is_printable (c : ascii) : bool :=
  let n := N_of_ascii c in
  ((32 <=? n) && (n <? 127) || (161 <=? n) && negb (n =? 173))%N.

(** One character of [repr(s)], inside the quotes [quote]. *)
Definition repr_char (quote c : ascii) : string :=
  if Ascii.eqb c quote || Ascii.eqb c backslash then String backslash (String c "")
  else if Ascii.eqb c TAB then String backslash "t"
  else if Ascii.eqb c LF then String backslash "n"
  else if Ascii.eqb c CR then String backslash "r"
  else if is_printable c then String c ""
  else hex_escape c.

Fixpoint repr_body (quote : ascii) (s : string) : string :=
  match s with
  | EmptyString => EmptyString
  | String c rest => repr_char quote c +:+ repr_body quote rest
  end.

(** Single quotes, unless the string has a single quote and no double
    quote. *)
Definition repr_quote (s : string) : ascii :=
  if has_char squote s && negb (has_char dquote s) then dquote else squote.

Definition repr (s : string) : string :=
  let q := repr_quote s in
  String q (repr_body q s +:+ String q "").

(** Characters [repr] copies unchanged whatever the quote. *)
Definition plain (c : ascii) : bool :=
  is_printable c && negb (Ascii.eqb c squote) && negb (Ascii.eqb c dquote)
  && negb (Ascii.eqb c backslash).

Fixpoint all_chars (p : ascii -> bool) (s : string) : bool :=
  match s with
  | EmptyString => true
  | String c rest => p c && all_chars p rest
  end.

(** The characters an escape sequence is made of. *)
Definition escape_alphabet : string :=
  String backslash (String squote (String dquote "tnrx0123456789abcdef")).

Definition is_quote (q : ascii) : Prop := q = squote \/ q = dquote.

End PyStr.

(** ** Python values carried by an exception

    The arguments an error is built from: strings (the message of an
    [ee.EEException]), integers (an error code) and [None]. *)

Inductive pyval : Type :=
| PyString (s : string)
| PyInt (z : Z)
| PyNone.

Definition py_repr (v : pyval) : string :=
  match v with
  | PyString s => PyStr.repr s
  | PyInt z => pretty z
  | PyNone => "None"
  end.

Fixpoint join (sep : string) (l : list string) : string :=
  match l with
  | [] => ""
  | [x] => x
  | x :: rest => x +:+ sep +:+ join sep rest
  end.

(** [repr] of a tuple: [()], [(x,)], [(x, y, ...)]. *)
Definition repr_tuple (l : list pyval) : string :=
  match l with
  | [] => "()"
  | [x] => "(" +:+ py_repr x +:+ ",)"
  | _ => "(" +:+ join ", " (map py_repr l) +:+ ")"
  end.

(** An instance of [Exception], as far as the script looks at it:
    [type(ex).__name__] and [ex.args].  Every [except] clause of the
    script is [except Exception]; what is raised outside that class
    ([KeyboardInterrupt], [SystemExit]) is not an error of a call and is
    not modelled. *)
Record exception : Type := Exn {
  type_name : string;
  args : list pyval
}.

(** ** Earth Engine handles

    [ee.ImageCollection(id)] and [.mosaic()] build lazy client-side
    handles; nothing is evaluated until the platform runs a request. *)

Inductive ImageCollection : Type :=
| ee_ImageCollection (asset_id : string).

Inductive Image : Type :=
| mosaic (collection : ImageCollection).

Definition get_worldpop_data_from_gee (constrained : bool) : ImageCollection :=
  if constrained
  then ee_ImageCollection "WorldPop/GP/100m/pop_age_sex_cons_unadj"
  else ee_ImageCollection "WorldPop/GP/100m/pop_age_sex".

(** The script always passes [constrained] to the two functions above and
    below, so their default [False] is never used. *)
Definition worldpop_mosaic (constrained : bool) : Image :=
  let pop_data := get_worldpop_data_from_gee constrained in
  let pop_data_img := mosaic pop_data in
  pop_data_img.

(** ** The aggregation request

    The arguments of one [geemap.zonal_statistics] call.  [tile_scale] is
    [None] when the keyword is not passed (geemap then uses its own
    default of 1). *)

Record request (FeatureCollection : Type) : Type := Request {
  in_value_raster : Image;
  in_zone_vector : FeatureCollection;
  out_file_path : string;
  scale : Z;
  statistics_type : string;
  bestEffort : bool;
  tile_scale : option Z
}.

Arguments Request {FeatureCollection}.
Arguments in_value_raster {FeatureCollection}.
Arguments in_zone_vector {FeatureCollection}.
Arguments out_file_path {FeatureCollection}.
Arguments scale {FeatureCollection}.
Arguments statistics_type {FeatureCollection}.
Arguments bestEffort {FeatureCollection}.
Arguments tile_scale {FeatureCollection}.

(** What the platform answers to a request: the result table, as the bytes
    of the file to write, or an error. *)
Inductive response : Type :=
| Computed (table : list Byte.byte)
| Failed (ex : exception).

(** The result of a Python call: a value, or a raised exception. *)
Inductive outcome (A : Type) : Type :=
| Return (a : A)
| Raise (ex : exception).

Arguments Return {A}.
Arguments Raise {A}.

(** ** The script *)

Section Script.

(** The state of everything outside the script (the local disk the
    shapefile is read from, the remote platform), and the type of the
    polygon collection handles [geemap.shp_to_ee] returns. *)
Context {World FeatureCollection : Type}.

(** [geemap.shp_to_ee(shapefile)]. *)
Variable shp_to_ee_oracle :
  string -> World -> outcome FeatureCollection * World.

(** The platform evaluating an aggregation request. *)
Variable zonal_oracle :
  request FeatureCollection -> World -> response * World.

(** What a run can change: the world, the files written, what was
    printed (one entry for each [print] call), and a log of the
    aggregation calls issued, each with its answer.  The log is not a
    variable of the script; the statements below read it. *)
Record state : Type := State {
  world : World;
  files : gmap string (list Byte.byte);
  stdout : list string;
  calls : list (request FeatureCollection * response)
}.

Definition M (A : Type) : Type := state -> outcome A * state.

#[export] Instance M_ret : MRet M := fun A a st => (Return a, st).

#[export] Instance M_bind : MBind M := fun A B f m st =>
  match m st with
  | (Return a, st') => f a st'
  | (Raise ex, st') => (Raise ex, st')
  end.

(** [try: body / except Exception as ex: handler ex]. *)
Definition try_except {A : Type} (body : M A) (handler : exception -> M A) : M A :=
  fun st =>
    match body st with
    | (Return a, st') => (Return a, st')
    | (Raise ex, st') => handler ex st'
    end.

Definition print (line : string) : M unit :=
  fun st =>
    (Return tt,
     {| world := world st; files := files st;
        stdout := stdout st ++ [line]; calls := calls st |}).

Definition shp_to_ee (shapefile : string) : M FeatureCollection :=
  fun st =>
    let '(r, w) := shp_to_ee_oracle shapefile (world st) in
    (r, {| world := w; files := files st;
           stdout := stdout st; calls := calls st |}).

(** Modelled from the spec: [geemap.zonal_statistics] is third-party
    code.  It issues the aggregation request; on success it writes the
    result table to [out_file_path], and it raises on any failure. *)
Definition zonal_statistics (in_value_raster : Image)
    (in_zone_vector : FeatureCollection) (out_file_path : string)
    (scale : Z) (statistics_type : string) (bestEffort : bool)
    (tile_scale : option Z) : M unit :=
  fun st =>
    let req := Request in_value_raster in_zone_vector out_file_path scale
                       statistics_type bestEffort tile_scale in
    let '(resp, w) := zonal_oracle req (world st) in
    let log := calls st ++ [(req, resp)] in
    match resp with
    | Computed table =>
        (Return tt,
         {| world := w; files := <[out_file_path := table]> (files st);
            stdout := stdout st; calls := log |})
    | Failed ex =>
        (Raise ex,
         {| world := w; files := files st;
            stdout := stdout st; calls := log |})
    end.

Definition TOO_LARGE : string := "Output of image computation is too large".

(** ["Output of image computation is too large" in repr(ex.args)]. *)
Definition too_large (ex : exception) : bool :=
  PyStr.contains TOO_LARGE (repr_tuple (args ex)).

(** [error_template.format(name, a)]: [{0}] is the name, [{1!r}] is
    [repr(a)], with a line feed between the two sentences. *)
Definition error_template (name : string) (a : list pyval) : string :=
  "An exception of type " +:+ name +:+ " occurred. Arguments:"
  +:+ String PyStr.LF (repr_tuple a).

Definition worldpop_zonal_stats (shapefile out_path : string)
    (constrained : bool) (scale : Z) : M unit :=
  fc ← shp_to_ee shapefile;
  let worldpop := worldpop_mosaic constrained in
  try_except
    (zonal_statistics worldpop fc out_path scale "SUM" true None)
    (fun ex =>
       if too_large ex then
         print "Computation is too large, trying tileScale=2";;
         try_except
           (zonal_statistics worldpop fc out_path scale "SUM" true (Some 2))
           (fun ex =>
              if too_large ex then
                print "Computation is too large, trying tileScale=4";;
                try_except
                  (zonal_statistics worldpop fc out_path scale "SUM" true (Some 4))
                  (fun ex =>
                     if too_large ex then
                       print ("The shapefile is too big for the scale. You could try splitting up the shapefile or "
                              +:+ "increasing the scale parameter.")
                     else
                       let message := error_template (type_name ex) (args ex) in
                       print message)
              else
                let message := error_template (type_name ex) (args ex) in
                print message)
       else
         let message := error_template (type_name ex) (args ex) in
         print message).

(** A call site of [worldpop_zonal_stats]: [shapefile] is required, the
    other three parameters may be omitted and then take the defaults of
    the signature. *)
Definition call_worldpop_zonal_stats (shapefile : string)
    (out_path : option string) (constrained : option bool)
    (scale : option Z) : M unit :=
  worldpop_zonal_stats shapefile
    (default "output.csv" out_path)
    (default false constrained)
    (default 100 scale).

(** The aggregation calls issued between two states. *)
Definition issued (st st' : state) : list (request FeatureCollection * response) :=
  drop (length (calls st)) (calls st').

(** A platform is stateless when its answers depend on the request
    alone, not on what happened before. *)
Definition stateless : Prop :=
  (forall p w w', (shp_to_ee_oracle p w).1 = (shp_to_ee_oracle p w').1)
  /\ (forall q w w', (zonal_oracle q w).1 = (zonal_oracle q w').1).

End Script.

Arguments state : clear implicits.
Arguments M : clear implicits.

(** An argument of an error that is a string with the text in it. *)
Definition mentions_too_large (v : pyval) : bool :=
  match v with
  | PyString s => PyStr.contains TOO_LARGE s
  | PyInt _ | PyNone => false
  end.

(** The request of one attempt of [worldpop_zonal_stats]: everything but
    [ts] comes from the arguments of the run. *)
Definition attempt {FeatureCollection : Type} (fc : FeatureCollection)
    (out_path : string) (constrained : bool) (scale : Z)
    (ts : option Z) : request FeatureCollection :=
  Request (worldpop_mosaic constrained) fc out_path scale "SUM" true ts.

Definition is_failed (c : response) : bool :=
  match c with
  | Failed _ => true
  | Computed _ => false
  end.

Definition escalation_notices : list string :=
  [ "Computation is too large, trying tileScale=2";
    "Computation is too large, trying tileScale=4" ].

Definition give_up_message : string :=
  "The shapefile is too big for the scale. You could try splitting up the shapefile or increasing the scale parameter.".

(** The lines printed between two states. *)
Definition printed {World FeatureCollection : Type}
    (st st' : state World FeatureCollection) : list string :=
  drop (length (stdout st)) (stdout st').

(** A call answered with a "too large" error. *)
Definition is_too_large (c : response) : bool :=
  match c with
  | Failed ex => too_large ex
  | Computed _ => false
  end.

(** ** The module body and the entry point

    Line 5 runs [ee.Initialize()] when the module is loaded; lines 101-107
    run one fixed invocation between two readings of the clock and print
    the elapsed time.  Floating-point numbers stay abstract: the clock
    returns one, [float_sub] is their subtraction and [format_2f] is
    ["{:.2f}".format]. *)

Section EntryPoint.

Context {World FeatureCollection Float : Type}.

(** [ee.Initialize()]. *)
Variable initialize_oracle : World -> outcome unit * World.

Variable shp_to_ee_oracle :
  string -> World -> outcome FeatureCollection * World.

Variable zonal_oracle :
  request FeatureCollection -> World -> response * World.

(** [time.time()]. *)
Variable time_oracle : World -> Float * World.

Variable float_sub : Float -> Float -> Float.

Variable format_2f : Float -> string.

Definition ee_Initialize : M World FeatureCollection unit :=
  fun st =>
    let '(r, w) := initialize_oracle (world st) in
    (r, {| world := w; files := files st;
           stdout := stdout st; calls := calls st |}).

Definition time_time : M World FeatureCollection Float :=
  fun st =>
    let '(t, w) := time_oracle (world st) in
    (Return t, {| world := w; files := files st;
                  stdout := stdout st; calls := calls st |}).

Definition main_shapefile : string :=
  "/Users/cate/git/mapaction-worldpop/data/gmb/gmb_admn_ad2_py_s1_wfp_pp_districts.shp".

Definition main_out_path : string :=
  "/Users/cate/git/worldpop-stats/output.shp".

(** ["time elapsed: {:.2f}s".format(x)]. *)
Definition elapsed_line (x : Float) : string :=
  "time elapsed: " +:+ format_2f x +:+ "s".

(** The block under [if __name__ == "__main__":]. *)
Definition main_block : M World FeatureCollection unit :=
  start_time ← time_time;
  worldpop_zonal_stats shp_to_ee_oracle zonal_oracle
    main_shapefile main_out_path false 100;;
  now ← time_time;
  print (elapsed_line (float_sub now start_time)).

(** The module, run top to bottom with [__name__] bound to [name]. *)
Definition module_body (name : string) : M World FeatureCollection unit :=
  ee_Initialize;;
  if String.eqb name "__main__" then main_block else mret tt.

End EntryPoint.

(** ** Stub worlds, used to run the script on concrete inputs *)

Module Stub.

Definition too_large_error : exception :=
  Exn "EEException"
      [PyString "Output of image computation is too large (1295027 bytes > 1048576)."].

Definition quota_error : exception :=
  Exn "EEException" [PyString "User memory limit exceeded."].

Definition load_error : exception :=
  Exn "Exception" [PyString "The provided shapefile could not be found."].

Definition table : list Byte.byte := [Byte.x69; Byte.x64; Byte.x2c; Byte.x73; Byte.x75; Byte.x6d].

(** Every path but [missing.shp] loads; the handle is the path. *)
Definition shp_to_ee {W : Type} (path : string) (w : W) : outcome string * W :=
  if String.eqb path "missing.shp" then (Raise load_error, w) else (Return path, w).

(** The platform answers from a script, one answer per call. *)
Definition scripted (r : request string) (w : list response) : response * list response :=
  match w with
  | [] => (Failed quota_error, [])
  | answer :: rest => (answer, rest)
  end.

(** A stateless platform that counts its calls and manages the request
    only with [tile_scale = 4]. *)
Definition needs_tile_scale_4 (r : request string) (w : nat) : response * nat :=
  if decide (tile_scale r = Some 4)
  then (Computed table, S w)
  else (Failed too_large_error, S w).

Definition start {W : Type} (w : W) : state W string :=
  {| world := w; files := ∅; stdout := []; calls := [] |}.

(** The platform manages every request. *)
Definition always_computed {W : Type} (r : request string) (w : W) : response * W :=
  (Computed table, w).

Definition auth_error : exception :=
  Exn "EEException" [PyString "Please authorize access to your Earth Engine account."].

Definition initialize {W : Type} (w : W) : outcome unit * W := (Return tt, w).

Definition initialize_fails {W : Type} (w : W) : outcome unit * W :=
  (Raise auth_error, w).

(** A clock that counts its readings, in whole seconds. *)
Definition clock (w : nat) : Z * nat := (Z.of_nat w, S w).

Definition format_whole (x : Z) : string := pretty x +:+ ".00".

(** A disk that already holds an output file from an earlier run. *)
Definition start_with_file {W : Type} (w : W) (path : string)
    (old : list Byte.byte) : state W string :=
  {| world := w; files := {[ path := old ]}; stdout := []; calls := [] |}.

End Stub.

(** * Properties *)

(** ** Searching the [repr] of a string *)

Module PyStrFacts.
Import PyStr.

Lemma append_assoc (a b c : string) : (a +:+ b) +:+ c = a +:+ (b +:+ c).
Proof.
  induction a as [|x a IH]; [reflexivity|].
  change (String x ((a +:+ b) +:+ c) = String x (a +:+ b +:+ c)).
  by rewrite IH.
Qed.

Lemma prefix_cons a n b h :
  String.prefix (String a n) (String b h) = Ascii.eqb a b && String.prefix n h.
Proof.
  cbn. destruct (ascii_dec a b) as [->|Hne].
  - by rewrite Ascii.eqb_refl.
  - apply Ascii.eqb_neq in Hne. by rewrite Hne.
Qed.

Lemma contains_cons n b h :
  contains n (String b h) = String.prefix n (String b h) || contains n h.
Proof. reflexivity. Qed.

Lemma contains_append_r n l h :
  contains n h = true -> contains n (l +:+ h) = true.
Proof.
  intros H. induction l as [|x l IH]; [exact H|].
  change (contains n (String x (l +:+ h)) = true).
  rewrite contains_cons, IH. apply orb_true_r.
Qed.

(** A stretch of characters none of which starts the needle hides no
    occurrence of it. *)
Lemma contains_skip c0 n l h :
  has_char c0 l = false ->
  contains (String c0 n) (l +:+ h) = contains (String c0 n) h.
Proof.
  induction l as [|x l IH]; [reflexivity|].
  cbn [has_char]. intros [Hx Hl]%orb_false_elim.
  change (contains (String c0 n) (String x (l +:+ h)) = contains (String c0 n) h).
  rewrite contains_cons, prefix_cons, Hx. cbn. by apply IH.
Qed.

Lemma has_char_subset x s a :
  all_chars (fun c => has_char c a) s = true ->
  has_char x a = false -> has_char x s = false.
Proof.
  induction s as [|c s IH]; [reflexivity|].
  cbn. intros [Hc Hs]%andb_prop Hx.
  rewrite (IH Hs Hx), orb_false_r.
  destruct (Ascii.eqb_spec x c) as [->|]; [congruence|reflexivity].
Qed.

Lemma repr_char_plain q c : is_quote q -> plain c = true -> repr_char q c = String c "".
Proof.
  intros Hq. unfold plain, repr_char.
  intros [[[Hp Hs]%andb_prop Hd]%andb_prop Hb]%andb_prop.
  apply negb_true_iff in Hs, Hd, Hb.
  assert (Ascii.eqb c q = false) as -> by (destruct Hq as [-> | ->]; assumption).
  rewrite Hb, Hp. cbn.
  destruct (Ascii.eqb_spec c TAB) as [->|]; [discriminate Hp|].
  destruct (Ascii.eqb_spec c LF) as [->|]; [discriminate Hp|].
  destruct (Ascii.eqb_spec c CR) as [->|]; [discriminate Hp|].
  reflexivity.
Qed.

(** A character is copied, or becomes a backslash and more characters
    of the escape alphabet. *)
Lemma repr_char_shape q c :
  is_quote q ->
  repr_char q c = String c ""
  \/ exists e, repr_char q c = String backslash e
               /\ all_chars (fun x => has_char x escape_alphabet) (String backslash e) = true.
Proof.
  intros [-> | ->]; destruct c as [[] [] [] [] [] [] [] []];
    vm_compute; eauto.
Qed.

(** [repr] copies a needle of plain characters: it starts the escaped
    text exactly when it starts the text. *)
Lemma prefix_repr_body q n m t :
  is_quote q -> all_chars plain n = true ->
  String.prefix n m = true ->
  String.prefix n (repr_body q m +:+ t) = true.
Proof.
  intros Hq. revert m. induction n as [|a n IH]; intros m Hn Hp.
  - by destruct (repr_body q m +:+ t).
  - destruct m as [|c m]; [discriminate Hp|].
    cbn in Hn. apply andb_prop in Hn as [Ha Hn].
    rewrite prefix_cons in Hp. apply andb_prop in Hp as [Hac Hp].
    apply Ascii.eqb_eq in Hac as <-.
    cbn [repr_body]. rewrite (repr_char_plain q a Hq Ha).
    change (String.prefix (String a n) (String a (repr_body q m +:+ t)) = true).
    rewrite prefix_cons, Ascii.eqb_refl. cbn. by apply IH.
Qed.

Lemma plain_not_quote q a : is_quote q -> plain a = true -> Ascii.eqb a q = false.
Proof.
  unfold plain. intros Hq [[[_ Hs]%andb_prop Hd]%andb_prop _]%andb_prop.
  apply negb_true_iff in Hs, Hd. by destruct Hq as [-> | ->].
Qed.

Lemma plain_not_backslash a : plain a = true -> Ascii.eqb a backslash = false.
Proof.
  unfold plain. intros [_ Hb]%andb_prop. by apply negb_true_iff in Hb.
Qed.

Lemma prefix_repr_body_inv q n m t :
  is_quote q -> all_chars plain n = true ->
  String.prefix n (repr_body q m +:+ String q t) = true ->
  String.prefix n m = true.
Proof.
  intros Hq. revert m. induction n as [|a n IH]; intros m Hn Hp; [by destruct m|].
  cbn in Hn. apply andb_prop in Hn as [Ha Hn].
  destruct m as [|c m].
  - change (String.prefix (String a n) (String q t) = true) in Hp.
    rewrite prefix_cons, (plain_not_quote q a Hq Ha) in Hp. discriminate Hp.
  - cbn [repr_body] in Hp. rewrite append_assoc in Hp.
    destruct (repr_char_shape q c Hq) as [E | E].
    + rewrite E in Hp.
      change (String.prefix (String a n) (String c (repr_body q m +:+ String q t)) = true) in Hp.
      rewrite prefix_cons in *. apply andb_prop in Hp as [-> Hp].
      cbn. by apply IH.
    + destruct E as (e & E & _). rewrite E in Hp.
      change (String.prefix (String a n)
                (String backslash (e +:+ repr_body q m +:+ String q t)) = true) in Hp.
      rewrite prefix_cons, (plain_not_backslash a Ha) in Hp. discriminate Hp.
Qed.

Lemma contains_repr_body q n m t :
  is_quote q -> all_chars plain n = true ->
  contains n m = true -> contains n (repr_body q m +:+ t) = true.
Proof.
  intros Hq Hn. induction m as [|c m IH]; intros H.
  - destruct n; [|discriminate H]. by destruct t.
  - rewrite contains_cons in H. apply orb_prop in H as [H | H].
    + pose proof (prefix_repr_body q n (String c m) t Hq Hn H) as Hp.
      destruct (repr_body q (String c m) +:+ t) eqn:E; cbn in *; by rewrite Hp.
    + cbn [repr_body]. rewrite append_assoc. apply contains_append_r. by apply IH.
Qed.

Lemma contains_repr_body_inv q c0 n m t :
  is_quote q -> all_chars plain (String c0 n) = true ->
  has_char c0 escape_alphabet = false ->
  contains (String c0 n) (repr_body q m +:+ String q t) = true ->
  contains (String c0 n) m = true \/ contains (String c0 n) (String q t) = true.
Proof.
  intros Hq Hn Hc0. induction m as [|c m IH]; intros H; [by right|].
  destruct (repr_char_shape q c Hq) as [E | (e & E & He)].
  - assert (repr_body q (String c m) +:+ String q t
            = String c (repr_body q m +:+ String q t)) as Hcons
      by (cbn [repr_body]; rewrite append_assoc, E; reflexivity).
    rewrite Hcons, contains_cons, <- Hcons in H. apply orb_prop in H as [H | H].
    + left. apply prefix_repr_body_inv in H; [|done..].
      by rewrite contains_cons, H.
    + destruct (IH H) as [Hm | Ht]; [left | by right].
      rewrite contains_cons, Hm. apply orb_true_r.
  - cbn [repr_body] in H. rewrite append_assoc, contains_skip in H.
    + destruct (IH H) as [Hm | Ht]; [left | by right].
      rewrite contains_cons, Hm. apply orb_true_r.
    + rewrite E. by apply (has_char_subset _ _ _ He).
Qed.

(** [needle in repr(s)] is [needle in s] for a non-empty needle of plain
    characters. *)
Lemma contains_repr c0 n s :
  all_chars plain (String c0 n) = true ->
  has_char c0 escape_alphabet = false ->
  contains (String c0 n) (repr s) = contains (String c0 n) s.
Proof.
  intros Hn Hc0. unfold repr.
  assert (is_quote (repr_quote s)) as Hq
    by (unfold repr_quote, is_quote; destruct (_ && _); auto).
  set (q := repr_quote s) in *.
  assert (Ascii.eqb c0 q = false) as Hc0q.
  { apply plain_not_quote; [done|]. cbn in Hn. by apply andb_prop in Hn as [? _]. }
  rewrite contains_cons, prefix_cons, Hc0q. cbn [andb orb].
  apply eq_true_iff_eq. split.
  - intros H.
    destruct (contains_repr_body_inv q c0 n s "" Hq Hn Hc0 H) as [H' | H'];
      [exact H'|].
    rewrite contains_cons, prefix_cons, Hc0q in H'. discriminate H'.
  - by apply contains_repr_body.
Qed.

(** A separator foreign to the needle splits the search. *)
Lemma prefix_sep n a x b :
  has_char x n = false ->
  n <> "" ->
  String.prefix n (a +:+ String x b) = String.prefix n a.
Proof.
  revert a. induction n as [|c n IH]; intros a Hx Hne; [done|].
  cbn in Hx. apply orb_false_elim in Hx as [Hxc Hx].
  destruct a as [|y a].
  - change (String.prefix (String c n) (String x b) = false).
    by rewrite prefix_cons, Ascii.eqb_sym, Hxc.
  - change (String.prefix (String c n) (String y (a +:+ String x b))
            = String.prefix (String c n) (String y a)).
    rewrite !prefix_cons. destruct n as [|c' n].
    + by destruct (a +:+ String x b), a.
    + by rewrite IH.
Qed.

Lemma contains_sep n a x b :
  has_char x n = false ->
  n <> "" ->
  contains n (a +:+ String x b) = contains n a || contains n b.
Proof.
  intros Hx Hne. induction a as [|y a IH].
  - change (contains n (String x b) = contains n "" || contains n b).
    rewrite contains_cons. f_equal.
    transitivity (String.prefix n ""); [exact (prefix_sep n "" x b Hx Hne)|].
    cbn [contains]. by rewrite orb_false_r.
  - change (contains n (String y (a +:+ String x b))
            = contains n (String y a) || contains n b).
    rewrite !contains_cons, IH, orb_assoc. do 2 f_equal.
    exact (prefix_sep n (String y a) x b Hx Hne).
Qed.

Lemma contains_absent c0 n h :
  has_char c0 h = false -> contains (String c0 n) h = false.
Proof.
  induction h as [|y h IH]; [reflexivity|].
  cbn [has_char]. intros [Hy Hh]%orb_false_elim.
  by rewrite contains_cons, prefix_cons, Hy, IH.
Qed.

(** Decimal numerals consist of digits and a sign. *)
Lemma has_char_pretty_N_go c x s :
  (forall d, Ascii.eqb c (pretty_N_char d) = false) ->
  has_char c (pretty_N_go x s) = has_char c s.
Proof.
  intros Hc. revert s. induction (N.lt_wf_0 x) as [x _ IH]; intros s.
  destruct (decide (x = 0)%N) as [->|].
  - by rewrite pretty_N_go_0.
  - rewrite pretty_N_go_step by lia. rewrite IH by (apply N.div_lt; lia).
    cbn. by rewrite Hc.
Qed.

Lemma has_char_pretty_Z c (z : Z) :
  (forall d, Ascii.eqb c (pretty_N_char d) = false) ->
  Ascii.eqb c "-" = false ->
  has_char c (pretty z) = false.
Proof.
  intros Hc Hm.
  assert (forall p : positive, has_char c (pretty p) = false) as Hp.
  { intros p. unfold pretty, pretty_positive, pretty, pretty_N.
    case_decide; [done|]. by rewrite has_char_pretty_N_go. }
  destruct z as [|p|p]; unfold pretty, pretty_Z.
  - pose proof (Hc 0%N) as H0. cbn in *. by rewrite H0.
  - apply Hp.
  - change (has_char c (String "-" (pretty p)) = false).
    cbn. by rewrite Hm, Hp.
Qed.
End PyStrFacts.

(** ** The test of the error text *)

Section ErrorText.
Import PyStr PyStrFacts.

Lemma TOO_LARGE_cons :
  TOO_LARGE = String "O" "utput of image computation is too large".
Proof. reflexivity. Qed.

Lemma contains_py_repr v :
  contains TOO_LARGE (py_repr v) = mentions_too_large v.
Proof.
  destruct v as [s|z|]; cbn [py_repr mentions_too_large].
  - rewrite TOO_LARGE_cons. by apply contains_repr.
  - rewrite TOO_LARGE_cons. apply contains_absent, has_char_pretty_Z; [|done].
    intros d. unfold pretty_N_char. by repeat case_match.
  - reflexivity.
Qed.

Lemma contains_join l :
  contains TOO_LARGE (join ", " (map py_repr l)) = existsb mentions_too_large l.
Proof.
  induction l as [|v l IH]; [reflexivity|].
  destruct l as [|v' l].
  - cbn [map join existsb]. by rewrite contains_py_repr, orb_false_r.
  - change (contains TOO_LARGE
              (py_repr v +:+ String "," (String " " (join ", " (map py_repr (v' :: l)))))
            = mentions_too_large v || existsb mentions_too_large (v' :: l)).
    rewrite contains_sep by done.
    rewrite contains_py_repr, <- IH. by f_equal.
Qed.

(** The test of the script holds exactly when one of the error's
    arguments is a string with the text in it. *)
Lemma too_large_spec ex :
  too_large ex = existsb mentions_too_large (args ex).
Proof.
  unfold too_large. destruct ex as [name [|v [|v' l]]]; cbn [args repr_tuple].
  - reflexivity.
  - change (contains TOO_LARGE (String "(" (py_repr v +:+ String "," ")"))
            = existsb mentions_too_large [v]).
    rewrite contains_cons. rewrite TOO_LARGE_cons at 1. rewrite prefix_cons.
    cbn [Ascii.eqb andb orb existsb]. rewrite contains_sep by done.
    by rewrite contains_py_repr.
  - change (contains TOO_LARGE
              (String "(" (join ", " (map py_repr (v :: v' :: l)) +:+ String ")" ""))
            = existsb mentions_too_large (v :: v' :: l)).
    rewrite contains_cons. rewrite TOO_LARGE_cons at 1. rewrite prefix_cons.
    cbn [Ascii.eqb andb orb]. rewrite contains_sep by done.
    by rewrite contains_join, orb_false_r.
Qed.

Lemma too_large_message name msg :
  too_large (Exn name [PyString msg]) = contains TOO_LARGE msg.
Proof. rewrite too_large_spec. cbn. apply orb_false_r. Qed.
End ErrorText.

(** ** The dataset selector *)

(** C6: the constrained flag selects one of two fixed, distinct dataset
    identifiers: the top-down-constrained one when it is true, the
    unconstrained one when it is false. *)
Theorem dataset_identifier_selected :
  get_worldpop_data_from_gee true
    = ee_ImageCollection "WorldPop/GP/100m/pop_age_sex_cons_unadj"
  /\ get_worldpop_data_from_gee false
    = ee_ImageCollection "WorldPop/GP/100m/pop_age_sex"
  /\ get_worldpop_data_from_gee true <> get_worldpop_data_from_gee false
  /\ forall constrained : bool,
       get_worldpop_data_from_gee constrained
       = ee_ImageCollection
           (if constrained
            then "WorldPop/GP/100m/pop_age_sex_cons_unadj"
            else "WorldPop/GP/100m/pop_age_sex").
Proof.
  repeat split; try discriminate.
  intros []; reflexivity.
Qed.

Section Ladder.

Context {World FeatureCollection : Type}.
Variable shp_to_ee_oracle :
  string -> World -> outcome FeatureCollection * World.
Variable zonal_oracle :
  request FeatureCollection -> World -> response * World.

Abbreviation run := (worldpop_zonal_stats shp_to_ee_oracle zonal_oracle).
Abbreviation state := (state World FeatureCollection).

Variables (shapefile out_path : string) (constrained : bool) (resolution : Z).

Abbreviation req fc := (attempt fc out_path constrained resolution).
Abbreviation go := (run shapefile out_path constrained resolution).

Lemma issued_app (st st' : state) l :
  calls st' = calls st ++ l -> issued st st' = l.
Proof. intros E. unfold issued. rewrite E. apply drop_app_length. Qed.

Ltac exec :=
  unfold worldpop_zonal_stats, attempt, mbind, M_bind, try_except,
    zonal_statistics, shp_to_ee, print in *;
  cbn [world files stdout calls] in *.

(** Take the next oracle call of the goal from a hypothesis. *)
Ltac answer H := rewrite H; cbn [world files stdout calls].

(** C1: when each aggregation call of the run raises a "too large" error,
    exactly three calls are issued, with tile scales unset, 2 and 4 in that
    order; the run prints the two escalation notices and the give-up
    message, writes no file and returns normally. *)
Theorem always_too_large_gives_up (st : state) fc w ex1 w1 ex2 w2 ex3 w3 :
  shp_to_ee_oracle shapefile (world st) = (Return fc, w) ->
  zonal_oracle (req fc None) w = (Failed ex1, w1) ->
  too_large ex1 = true ->
  zonal_oracle (req fc (Some 2)) w1 = (Failed ex2, w2) ->
  too_large ex2 = true ->
  zonal_oracle (req fc (Some 4)) w2 = (Failed ex3, w3) ->
  too_large ex3 = true ->
  go st
  = (Return tt,
     {| world := w3;
        files := files st;
        stdout := stdout st ++ escalation_notices ++ [give_up_message];
        calls := calls st ++ [(req fc None, Failed ex1);
                              (req fc (Some 2), Failed ex2);
                              (req fc (Some 4), Failed ex3)] |})
  /\ map (fun c => tile_scale c.1) (issued st (go st).2) = [None; Some 2; Some 4].
Proof.
  intros Hshp H1 T1 H2 T2 H3 T3. exec.
  answer Hshp. answer H1. answer T1. answer H2. answer T2. answer H3. answer T3.
  rewrite <- !app_assoc. split; [reflexivity|].
  erewrite issued_app by (cbn [calls snd]; reflexivity). reflexivity.
Qed.

(** C4: when the first aggregation call raises a "too large" error and
    the second succeeds, exactly two calls are issued and the output file
    is written once, by the second call, which carries [tile_scale=2]. *)
Theorem second_attempt_succeeds (st : state) fc w ex1 w1 table w2 :
  shp_to_ee_oracle shapefile (world st) = (Return fc, w) ->
  zonal_oracle (req fc None) w = (Failed ex1, w1) ->
  too_large ex1 = true ->
  zonal_oracle (req fc (Some 2)) w1 = (Computed table, w2) ->
  go st
  = (Return tt,
     {| world := w2;
        files := <[out_path := table]> (files st);
        stdout := stdout st ++ ["Computation is too large, trying tileScale=2"];
        calls := calls st ++ [(req fc None, Failed ex1);
                              (req fc (Some 2), Computed table)] |}).
Proof.
  intros Hshp H1 T1 H2. exec.
  answer Hshp. answer H1. answer T1. answer H2.
  rewrite <- !app_assoc. reflexivity.
Qed.

(** C8: when the first two aggregation calls raise "too large" errors
    and the third succeeds, exactly three calls are issued, the output
    file is written once, by the third call with [tile_scale=4], and
    only the two escalation notices are printed. *)
Theorem third_attempt_succeeds (st : state) fc w ex1 w1 ex2 w2 table w3 :
  shp_to_ee_oracle shapefile (world st) = (Return fc, w) ->
  zonal_oracle (req fc None) w = (Failed ex1, w1) ->
  too_large ex1 = true ->
  zonal_oracle (req fc (Some 2)) w1 = (Failed ex2, w2) ->
  too_large ex2 = true ->
  zonal_oracle (req fc (Some 4)) w2 = (Computed table, w3) ->
  go st
  = (Return tt,
     {| world := w3;
        files := <[out_path := table]> (files st);
        stdout := stdout st ++ escalation_notices;
        calls := calls st ++ [(req fc None, Failed ex1);
                              (req fc (Some 2), Failed ex2);
                              (req fc (Some 4), Computed table)] |}).
Proof.
  intros Hshp H1 T1 H2 T2 H3. exec.
  answer Hshp. answer H1. answer T1. answer H2. answer T2. answer H3.
  rewrite <- !app_assoc. reflexivity.
Qed.

(** Split a run on every answer of the platform and every test of the
    error text. *)
Ltac cases :=
  repeat (match goal with
          | |- context [shp_to_ee_oracle ?p ?x] =>
              destruct (shp_to_ee_oracle p x) as [[?fc|?ex] ?w] eqn:?
          | |- context [zonal_oracle ?q ?x] =>
              destruct (zonal_oracle q x) as [[?table|?ex] ?w] eqn:?
          | |- context [if too_large ?e then _ else _] =>
              destruct (too_large e) eqn:?
          end; cbn [world files stdout calls fst snd]).

Ltac log :=
  cbn [fst snd calls files stdout];
  erewrite !issued_app
    by (cbn [calls]; rewrite <- ?app_assoc;
        first [ reflexivity | symmetry; apply app_nil_r ]);
  rewrite <- ?app_assoc.

(** C2: when attempt 1 or 2 raises an error, the next attempt is made,
    with the tile scale doubled, exactly when [repr(ex.args)] of that
    error contains "Output of image computation is too large", which is
    when one of the error's arguments is a string with that text. *)
Theorem escalation_iff_too_large (st : state) (n : nat) r ex :
  (n = 0 \/ n = 1)%nat ->
  issued st (go st).2 !! n = Some (r, Failed ex) ->
  too_large ex = existsb mentions_too_large (args ex)
  /\ (too_large ex = true
      <-> exists r' answer,
            issued st (go st).2 !! S n = Some (r', answer)
            /\ tile_scale r' = Some (2 * default 1 (tile_scale r))).
Proof.
  intros Hn Hat. split; [apply too_large_spec|]. revert Hat.
  exec. cases; log; destruct Hn as [-> | ->]; cbn;
    intros Hat; try discriminate Hat; injection Hat as <- <-;
    (split; [ intros T; eauto | intros (? & ? & Hnext & Hts) ]);
    solve [ eauto | congruence | discriminate ].
Qed.

(** C5: when an attempt raises an error without the "too large" text,
    it is the last call of the run: no file is written, the run returns
    normally, and the line printed last is
    "An exception of type NAME occurred. Arguments:", a line feed and
    [repr] of the arguments, where NAME is the error's type name.  On the
    first attempt this makes one call in total. *)
Theorem other_error_ends_ladder (st : state) (n : nat) r ex :
  issued st (go st).2 !! n = Some (r, Failed ex) ->
  too_large ex = false ->
  (go st).1 = Return tt
  /\ length (issued st (go st).2) = S n
  /\ files (go st).2 = files st
  /\ stdout (go st).2
     = stdout st ++ take n escalation_notices
       ++ [ "An exception of type " +:+ type_name ex
            +:+ " occurred. Arguments:"
            +:+ String PyStr.LF (repr_tuple (args ex)) ].
Proof.
  exec. cases; log; destruct n as [|[|[|n]]]; cbn;
    intros Hat T; try discriminate Hat; injection Hat as <- <-;
    solve [ congruence | repeat split ].
Qed.

(** C7: every aggregation request of a run carries the same raster
    handle, polygon collection, output path, resolution, statistic (SUM)
    and best-effort flag; the tile scales are, in order, unset, 2
    and 4. *)
Theorem only_tile_scale_changes (st : state) fc w :
  shp_to_ee_oracle shapefile (world st) = (Return fc, w) ->
  (forall c, c ∈ issued st (go st).2 ->
     in_value_raster c.1 = worldpop_mosaic constrained
     /\ in_zone_vector c.1 = fc
     /\ out_file_path c.1 = out_path
     /\ scale c.1 = resolution
     /\ statistics_type c.1 = "SUM"
     /\ bestEffort c.1 = true)
  /\ map (fun c => tile_scale c.1) (issued st (go st).2)
     `prefix_of` [None; Some 2; Some 4]
  /\ issued st (go st).2 <> [].
Proof.
  intros Hshp. exec. answer Hshp. cases; log.
  all: split; [ intros c Hc; set_unfold in Hc; intuition (subst; reflexivity) | ].
  all: split; [ | discriminate ].
  all: cbn; solve [ by eexists [_; _] | by eexists [_] | by eexists [] ].
Qed.

(** C3 (amended): an error raised by the aggregation call is caught: the
    run returns normally and prints one line for each failed call.  An
    error raised while loading the polygons is raised to the caller,
    before any aggregation call and with nothing printed. *)
Theorem errors_caught_at_remote_call (st : state) :
  match shp_to_ee_oracle shapefile (world st) with
  | (Return fc, _) =>
      (go st).1 = Return tt
      /\ length (stdout (go st).2)
         = (length (stdout st)
            + length (List.filter (fun c => is_failed c.2) (issued st (go st).2)))%nat
  | (Raise ex, _) =>
      (go st).1 = Raise ex
      /\ stdout (go st).2 = stdout st
      /\ issued st (go st).2 = []
      /\ files (go st).2 = files st
  end.
Proof.
  exec. destruct (shp_to_ee_oracle shapefile (world st)) as [[fc|ex] w];
    cbn [world files stdout calls fst snd].
  - cases; log; split; try reflexivity;
      rewrite ?length_app; cbn; lia.
  - log. repeat split.
Qed.

(** Run the script from two states in step: a stateless platform gives
    both runs the same answer. *)
Ltac sync Hshp Hz :=
  repeat (match goal with
          | |- context [shp_to_ee_oracle ?p ?x] =>
              match goal with
              | |- context [shp_to_ee_oracle p ?y] =>
                  assert_fails (constr_eq x y);
                  let H := fresh in
                  pose proof (Hshp p x y) as H;
                  destruct (shp_to_ee_oracle p x) as [[?fc|?ex] ?w];
                  destruct (shp_to_ee_oracle p y) as [? ?w];
                  cbn [fst] in H; subst
              end
          | |- context [zonal_oracle ?q ?x] =>
              match goal with
              | |- context [zonal_oracle q ?y] =>
                  assert_fails (constr_eq x y);
                  let H := fresh in
                  pose proof (Hz q x y) as H;
                  destruct (zonal_oracle q x) as [[?table|?ex] ?w];
                  destruct (zonal_oracle q y) as [? ?w];
                  cbn [fst] in H; subst
              end
          | |- context [if too_large ?e then _ else _] =>
              destruct (too_large e) eqn:?
          end; cbn [world files stdout calls fst snd]).

(** Two runs against a stateless platform return the same result, issue
    the same calls, print the same lines and write the same table, if
    any, to [out_path]. *)
Lemma stateless_runs_agree (st1 st2 : state) :
  stateless shp_to_ee_oracle zonal_oracle ->
  exists (written : option (list Byte.byte)) (lines : list string),
    (go st1).1 = (go st2).1
    /\ issued st1 (go st1).2 = issued st2 (go st2).2
    /\ stdout (go st1).2 = stdout st1 ++ lines
    /\ stdout (go st2).2 = stdout st2 ++ lines
    /\ files (go st1).2 = from_option (fun t => <[out_path := t]> (files st1)) (files st1) written
    /\ files (go st2).2 = from_option (fun t => <[out_path := t]> (files st2)) (files st2) written.
Proof.
  intros [Hshp Hz]. exec. sync Hshp Hz; log.
  all: first [ solve [ exists None; eexists; repeat split; cbn;
                       try reflexivity; symmetry; apply app_nil_r ]
             | solve [ eexists (Some _); eexists; repeat split; cbn;
                       try reflexivity; symmetry; apply app_nil_r ] ].
Qed.

(** C9: two runs with the same arguments against a stateless platform
    issue the same aggregation requests and get the same answers, so
    they leave the same bytes at every path where the disks agreed
    before; and a second run after the first leaves the files as the
    first run left them. *)
Theorem deterministic_stub_same_output (st1 st2 : state) :
  stateless shp_to_ee_oracle zonal_oracle ->
  (go st1).1 = (go st2).1
  /\ map fst (issued st1 (go st1).2) = map fst (issued st2 (go st2).2)
  /\ issued st1 (go st1).2 = issued st2 (go st2).2
  /\ (forall path,
        files st1 !! path = files st2 !! path ->
        files (go st1).2 !! path = files (go st2).2 !! path)
  /\ files (go (go st1).2).2 = files (go st1).2.
Proof.
  intros Hs.
  destruct (stateless_runs_agree st1 st2 Hs)
    as (wr & ls & Hres & Hiss & _ & _ & Hf1 & Hf2).
  split; [exact Hres|]. split; [by rewrite Hiss|]. split; [exact Hiss|]. split.
  - intros path Hpath. rewrite Hf1, Hf2.
    destruct wr as [t|]; cbn; [|exact Hpath].
    rewrite !lookup_insert. case_decide; [reflexivity | exact Hpath].
  - destruct (stateless_runs_agree st1 (go st1).2 Hs)
      as (wr' & ls' & _ & _ & _ & _ & Hg1 & Hg2).
    rewrite Hg2. destruct wr' as [t|]; cbn in *; [|reflexivity].
    rewrite Hg1. apply insert_insert_eq.
Qed.

(** C10: the parameters left out of a call take the defaults of the
    signature: [out_path] is "output.csv", [constrained] is false and
    [scale] is 100; a call with the shapefile alone is the call with
    these three values passed. *)
Theorem documented_defaults :
  call_worldpop_zonal_stats shp_to_ee_oracle zonal_oracle shapefile None None None
  = run shapefile "output.csv" false 100
  /\ call_worldpop_zonal_stats shp_to_ee_oracle zonal_oracle shapefile None None None
     = call_worldpop_zonal_stats shp_to_ee_oracle zonal_oracle shapefile
         (Some "output.csv") (Some false) (Some 100)
  /\ (forall o c s,
        call_worldpop_zonal_stats shp_to_ee_oracle zonal_oracle shapefile
          (Some o) (Some c) (Some s)
        = run shapefile o c s)
  /\ (forall c s,
        call_worldpop_zonal_stats shp_to_ee_oracle zonal_oracle shapefile
          None c s
        = call_worldpop_zonal_stats shp_to_ee_oracle zonal_oracle shapefile
            (Some "output.csv") c s)
  /\ (forall o s,
        call_worldpop_zonal_stats shp_to_ee_oracle zonal_oracle shapefile
          o None s
        = call_worldpop_zonal_stats shp_to_ee_oracle zonal_oracle shapefile
            o (Some false) s)
  /\ (forall o c,
        call_worldpop_zonal_stats shp_to_ee_oracle zonal_oracle shapefile
          o c None
        = call_worldpop_zonal_stats shp_to_ee_oracle zonal_oracle shapefile
            o c (Some 100)).
Proof. repeat split. Qed.

(** ** More on the ladder *)

Lemma printed_app (st st' : state) l :
  stdout st' = stdout st ++ l -> printed st st' = l.
Proof. intros E. unfold printed. rewrite E. apply drop_app_length. Qed.

Ltac out :=
  erewrite !printed_app
    by (cbn [stdout]; rewrite <- ?app_assoc;
        first [ reflexivity | symmetry; apply app_nil_r ]).

(** An error report is never the give-up message. *)
Lemma error_template_not_give_up name a :
  error_template name a <> give_up_message.
Proof. discriminate. Qed.

(** X1: a run issues at most three aggregation calls, of which at most
    one is answered with a table; it issues none exactly when loading the
    polygons raises. *)
Theorem ladder_call_bounds (st : state) :
  (length (issued st (go st).2) <= 3)%nat
  /\ (length (List.filter (fun c => negb (is_failed c.2)) (issued st (go st).2)) <= 1)%nat
  /\ (issued st (go st).2 = []
      <-> exists ex, (shp_to_ee_oracle shapefile (world st)).1 = Raise ex).
Proof.
  exec. cases; log; cbn; (split; [lia|]); (split; [lia|]);
    (split; [ intros H | intros (? & H) ]); solve [ discriminate H | eauto ].
Qed.

(** X2: a call answered with a table is the last call of the run: the run
    returns normally, the table is what [out_path] holds afterwards,
    whatever it held before, and only the notices of the escalations
    before that call are printed (none when the first call succeeds). *)
Theorem success_ends_ladder (st : state) (n : nat) r table :
  issued st (go st).2 !! n = Some (r, Computed table) ->
  (go st).1 = Return tt
  /\ length (issued st (go st).2) = S n
  /\ files (go st).2 = <[out_path := table]> (files st)
  /\ files (go st).2 !! out_path = Some table
  /\ printed st (go st).2 = take n escalation_notices.
Proof.
  exec. cases; log; out; destruct n as [|[|[|n]]]; cbn;
    intros Hat; try discriminate Hat; injection Hat as <- <-;
    repeat split; apply lookup_insert_eq.
Qed.

(** X3: a run leaves every file other than [out_path] as it was. *)
Theorem other_paths_untouched (st : state) (path : string) :
  path <> out_path ->
  files (go st).2 !! path = files st !! path.
Proof.
  intros Hne. exec. cases; try reflexivity; by apply lookup_insert_ne.
Qed.

(** X4: when no call of a run is answered with a table, the files are
    left as they were: an output file of an earlier run stays in place. *)
Theorem failed_run_keeps_files (st : state) :
  forallb (fun c => is_failed c.2) (issued st (go st).2) = true ->
  files (go st).2 = files st.
Proof.
  exec. cases; log; cbn; intros H; try discriminate H; reflexivity.
Qed.

(** X5: every call of a run but the last was answered with a "too large"
    error. *)
Theorem earlier_attempts_too_large (st : state) (n : nat) :
  (S n < length (issued st (go st).2))%nat ->
  exists r ex,
    issued st (go st).2 !! n = Some (r, Failed ex) /\ too_large ex = true.
Proof.
  exec. cases; log; cbn; intros Hn; destruct n as [|[|n]]; cbn;
    solve [ lia | eauto ].
Qed.

(** X6: the notice printed before a retry names the tile scale of the
    request that follows it. *)
Theorem notice_names_next_tile_scale (st : state) (n : nat) r answer :
  issued st (go st).2 !! S n = Some (r, answer) ->
  exists k,
    tile_scale r = Some k
    /\ printed st (go st).2 !! n
       = Some ("Computation is too large, trying tileScale=" +:+ pretty k).
Proof.
  exec. cases; log; out; destruct n as [|[|n]]; cbn;
    intros Hat; try discriminate Hat; injection Hat as <- <-;
    eexists; split; reflexivity.
Qed.

(** X7: the give-up message is printed exactly when the run made three
    calls and each was answered with a "too large" error. *)
Theorem give_up_iff_three_too_large (st : state) :
  give_up_message ∈ printed st (go st).2
  <-> length (issued st (go st).2) = 3%nat
      /\ forallb (fun c => is_too_large c.2) (issued st (go st).2) = true.
Proof.
  exec. cases; log; out; cbn;
    repeat match goal with
           | E : too_large _ = _ |- _ => rewrite ?E; clear E
           end.
  all: split; [ intros H | intros [Hl Ht]; try discriminate Hl; try discriminate Ht ].
  all: try solve [ split; reflexivity ].
  all: try solve [ apply list_elem_of_In; cbn; auto ].
  all: exfalso; apply list_elem_of_In in H; cbn in H.
  all: repeat match goal with
              | H : _ \/ _ |- _ => destruct H as [H | H]
              end.
  all: solve [ discriminate H | contradiction
             | exact (error_template_not_give_up _ _ H) ].
Qed.

End Ladder.

(** ** The test of the error text, on the arguments *)

(** X8: the test ["...too large" in repr(ex.args)] holds exactly when one
    of the arguments of the error is a string that contains the text:
    the quotes and escapes of [repr] neither hide an occurrence nor make
    one, and the text is never found across two arguments. *)
Theorem too_large_iff_string_argument (ex : exception) :
  too_large ex = true
  <-> exists s, PyString s ∈ args ex /\ PyStr.contains TOO_LARGE s = true.
Proof.
  rewrite too_large_spec, existsb_exists. split.
  - intros ([s|z|] & Hin & Hs); try discriminate Hs.
    exists s. split; [by apply list_elem_of_In | exact Hs].
  - intros (s & Hin & Hs). exists (PyString s).
    split; [by apply list_elem_of_In | exact Hs].
Qed.

(** ** The entry point *)

Section EntryPointFacts.

Context {World FeatureCollection Float : Type}.
Variable initialize_oracle : World -> outcome unit * World.
Variable shp_to_ee_oracle :
  string -> World -> outcome FeatureCollection * World.
Variable zonal_oracle :
  request FeatureCollection -> World -> response * World.
Variable time_oracle : World -> Float * World.
Variable float_sub : Float -> Float -> Float.
Variable format_2f : Float -> string.

Abbreviation script :=
  (module_body initialize_oracle shp_to_ee_oracle zonal_oracle
     time_oracle float_sub format_2f).

Ltac exec_script :=
  unfold module_body, main_block, ee_Initialize, time_time,
    worldpop_zonal_stats, mbind, mret, M_bind, M_ret, try_except,
    zonal_statistics, shp_to_ee, print in *;
  cbn [world files stdout calls] in *.

Ltac script_cases :=
  repeat (match goal with
          | |- context [initialize_oracle ?x] =>
              destruct (initialize_oracle x) as [[[]|?ex] ?w] eqn:?
          | |- context [time_oracle ?x] =>
              destruct (time_oracle x) as [?t ?w] eqn:?
          | |- context [shp_to_ee_oracle ?p ?x] =>
              destruct (shp_to_ee_oracle p x) as [[?fc|?ex] ?w] eqn:?
          | |- context [zonal_oracle ?q ?x] =>
              destruct (zonal_oracle q x) as [[?table|?ex] ?w] eqn:?
          | |- context [if too_large ?e then _ else _] =>
              destruct (too_large e) eqn:?
          | |- context [if String.eqb ?a ?b then _ else _] =>
              destruct (String.eqb a b) eqn:?
          end; cbn [world files stdout calls fst snd]).

Ltac script_log :=
  cbn [fst snd calls files stdout];
  unfold issued, printed; cbn [calls stdout];
  rewrite <- ?app_assoc;
  rewrite ?drop_app_length, ?drop_all.

(** X10: run as [__main__], when [ee.Initialize()] returns and the
    polygons load, the script is the run of [worldpop_zonal_stats] on the
    arguments of the entry point between two readings of the clock: it
    returns normally whatever the platform answers, and the last line it
    prints is the elapsed time, the second reading (taken after the run)
    minus the first (taken before it).  It issues between one and three
    requests, all for the unconstrained mosaic at scale 100, written to
    the output path of the entry point. *)
Theorem main_reports_elapsed_time (st : state World FeatureCollection)
    w0 start_time w1 fc w2 now w3 :
  initialize_oracle (world st) = (Return tt, w0) ->
  time_oracle w0 = (start_time, w1) ->
  shp_to_ee_oracle main_shapefile w1 = (Return fc, w2) ->
  let after :=
    (worldpop_zonal_stats shp_to_ee_oracle zonal_oracle
       main_shapefile main_out_path false 100
       {| world := w1; files := files st;
          stdout := stdout st; calls := calls st |}).2 in
  time_oracle (world after) = (now, w3) ->
  script "__main__" st
  = (Return tt,
     {| world := w3; files := files after;
        stdout := stdout after ++ [elapsed_line format_2f (float_sub now start_time)];
        calls := calls after |})
  /\ last (printed st (script "__main__" st).2)
     = Some (elapsed_line format_2f (float_sub now start_time))
  /\ (1 <= length (issued st (script "__main__" st).2) <= 3)%nat
  /\ (forall c, c ∈ issued st (script "__main__" st).2 ->
        in_value_raster c.1 = mosaic (ee_ImageCollection "WorldPop/GP/100m/pop_age_sex")
        /\ out_file_path c.1 = main_out_path
        /\ scale c.1 = 100).
Proof.
  intros Hinit Hstart Hload after Hnow. subst after. exec_script.
  rewrite !String.eqb_refl, Hinit. cbn [world files stdout calls fst snd].
  rewrite Hstart. cbn [world files stdout calls fst snd].
  rewrite Hload in *. cbn [world files stdout calls fst snd] in *.
  script_cases.
  all: repeat (cbn [world files stdout calls fst snd] in Hnow;
               match goal with
               | E : _ = _ |- _ =>
                   tryif constr_eq E Hnow then fail else rewrite E in Hnow
               end).
  all: injection Hnow as -> ->; script_log.
  all: split; [reflexivity|].
  all: split; [reflexivity|].
  all: split; [cbn; lia|].
  all: intros c Hc; set_unfold in Hc; intuition (subst; reflexivity).
Qed.

(** X11: when the script raises, it has printed nothing, issued no
    aggregation call and written no file; the error is the one of
    [ee.Initialize()] or, run as [__main__], of loading the polygons. *)
Theorem raised_script_leaves_no_trace (st : state World FeatureCollection)
    (name : string) (ex : exception) :
  (script name st).1 = Raise ex ->
  printed st (script name st).2 = []
  /\ issued st (script name st).2 = []
  /\ files (script name st).2 = files st
  /\ ((initialize_oracle (world st)).1 = Raise ex
      \/ name = "__main__"
         /\ exists w, (shp_to_ee_oracle main_shapefile w).1 = Raise ex).
Proof.
  exec_script. script_cases; script_log; intros H; try discriminate H;
    injection H as ->; repeat split; auto.
  right. split; [by apply String.eqb_eq|].
  match goal with
  | E : shp_to_ee_oracle main_shapefile ?x = _ |- _ => exists x; rewrite E
  end.
  reflexivity.
Qed.

End EntryPointFacts.

(** ** The script on stub worlds *)

(** [repr] of a tuple of arguments, with a quote inside a string. *)
Example repr_tuple_mixed :
  repr_tuple [PyString "it's"; PyInt (-3); PyNone]
  = String "(" (String PyStr.dquote ("it's" +:+ String PyStr.dquote ", -3, None)")).
Proof. reflexivity. Qed.

Example too_large_error_matches :
  too_large Stub.too_large_error = true /\ too_large Stub.quota_error = false.
Proof. split; reflexivity. Qed.

Lemma always_too_large_gives_up_witness :
  let st := Stub.start [Failed Stub.too_large_error; Failed Stub.too_large_error;
                        Failed Stub.too_large_error] in
  let run := worldpop_zonal_stats Stub.shp_to_ee Stub.scripted
               "districts.shp" "output.csv" false 100 st in
  run
  = (Return tt,
     {| world := [];
        files := ∅;
        stdout := ["Computation is too large, trying tileScale=2";
                   "Computation is too large, trying tileScale=4";
                   give_up_message];
        calls := [(attempt "districts.shp" "output.csv" false 100 None,
                   Failed Stub.too_large_error);
                  (attempt "districts.shp" "output.csv" false 100 (Some 2),
                   Failed Stub.too_large_error);
                  (attempt "districts.shp" "output.csv" false 100 (Some 4),
                   Failed Stub.too_large_error)] |})
  /\ map (fun c => tile_scale c.1) (issued st run.2) = [None; Some 2; Some 4].
Proof.
  apply (always_too_large_gives_up Stub.shp_to_ee Stub.scripted
           "districts.shp" "output.csv" false 100
           (Stub.start [Failed Stub.too_large_error; Failed Stub.too_large_error;
                        Failed Stub.too_large_error])
           "districts.shp"
           [Failed Stub.too_large_error; Failed Stub.too_large_error;
            Failed Stub.too_large_error]
           Stub.too_large_error
           [Failed Stub.too_large_error; Failed Stub.too_large_error]
           Stub.too_large_error [Failed Stub.too_large_error]
           Stub.too_large_error []);
    reflexivity.
Defined.

Lemma second_attempt_succeeds_witness :
  worldpop_zonal_stats Stub.shp_to_ee Stub.scripted
    "districts.shp" "output.csv" false 100
    (Stub.start [Failed Stub.too_large_error; Computed Stub.table])
  = (Return tt,
     {| world := [];
        files := {[ "output.csv" := Stub.table ]};
        stdout := ["Computation is too large, trying tileScale=2"];
        calls := [(attempt "districts.shp" "output.csv" false 100 None,
                   Failed Stub.too_large_error);
                  (attempt "districts.shp" "output.csv" false 100 (Some 2),
                   Computed Stub.table)] |}).
Proof.
  apply (second_attempt_succeeds Stub.shp_to_ee Stub.scripted
           "districts.shp" "output.csv" false 100
           (Stub.start [Failed Stub.too_large_error; Computed Stub.table])
           "districts.shp" [Failed Stub.too_large_error; Computed Stub.table]
           Stub.too_large_error [Computed Stub.table] Stub.table []);
    reflexivity.
Defined.

Lemma third_attempt_succeeds_witness :
  worldpop_zonal_stats Stub.shp_to_ee Stub.needs_tile_scale_4
    "districts.shp" "output.csv" true 100 (Stub.start 0%nat)
  = (Return tt,
     {| world := 3%nat;
        files := {[ "output.csv" := Stub.table ]};
        stdout := escalation_notices;
        calls := [(attempt "districts.shp" "output.csv" true 100 None,
                   Failed Stub.too_large_error);
                  (attempt "districts.shp" "output.csv" true 100 (Some 2),
                   Failed Stub.too_large_error);
                  (attempt "districts.shp" "output.csv" true 100 (Some 4),
                   Computed Stub.table)] |}).
Proof.
  apply (third_attempt_succeeds Stub.shp_to_ee Stub.needs_tile_scale_4
           "districts.shp" "output.csv" true 100 (Stub.start 0%nat)
           "districts.shp" 0%nat Stub.too_large_error 1%nat
           Stub.too_large_error 2%nat Stub.table 3%nat);
    reflexivity.
Defined.

Lemma escalation_iff_too_large_witness :
  too_large Stub.too_large_error
  = existsb mentions_too_large (args Stub.too_large_error)
  /\ (too_large Stub.too_large_error = true
      <-> exists r' answer,
            issued (Stub.start [Failed Stub.too_large_error; Failed Stub.quota_error])
              (worldpop_zonal_stats Stub.shp_to_ee Stub.scripted
                 "districts.shp" "output.csv" false 100
                 (Stub.start [Failed Stub.too_large_error; Failed Stub.quota_error])).2
            !! 1%nat = Some (r', answer)
            /\ tile_scale r'
               = Some (2 * default 1
                             (tile_scale (attempt "districts.shp" "output.csv" false 100 None)))).
Proof.
  apply (escalation_iff_too_large Stub.shp_to_ee Stub.scripted
           "districts.shp" "output.csv" false 100
           (Stub.start [Failed Stub.too_large_error; Failed Stub.quota_error])
           0%nat (attempt "districts.shp" "output.csv" false 100 None)
           Stub.too_large_error).
  - left. reflexivity.
  - reflexivity.
Defined.

Lemma other_error_ends_ladder_witness :
  let st := Stub.start [Failed Stub.too_large_error; Failed Stub.quota_error] in
  let run := worldpop_zonal_stats Stub.shp_to_ee Stub.scripted
               "districts.shp" "output.csv" false 100 st in
  run.1 = Return tt
  /\ length (issued st run.2) = 2%nat
  /\ files run.2 = files st
  /\ stdout run.2
     = stdout st ++ take 1 escalation_notices
       ++ [ "An exception of type EEException occurred. Arguments:"
            +:+ String PyStr.LF "('User memory limit exceeded.',)" ].
Proof.
  apply (other_error_ends_ladder Stub.shp_to_ee Stub.scripted
           "districts.shp" "output.csv" false 100
           (Stub.start [Failed Stub.too_large_error; Failed Stub.quota_error])
           1%nat (attempt "districts.shp" "output.csv" false 100 (Some 2))
           Stub.quota_error).
  - reflexivity.
  - reflexivity.
Defined.

Lemma only_tile_scale_changes_witness :
  let st := Stub.start [Failed Stub.too_large_error; Computed Stub.table] in
  let run := worldpop_zonal_stats Stub.shp_to_ee Stub.scripted
               "districts.shp" "output.csv" false 250 st in
  (forall c, c ∈ issued st run.2 ->
     in_value_raster c.1 = worldpop_mosaic false
     /\ in_zone_vector c.1 = "districts.shp"
     /\ out_file_path c.1 = "output.csv"
     /\ scale c.1 = 250
     /\ statistics_type c.1 = "SUM"
     /\ bestEffort c.1 = true)
  /\ map (fun c => tile_scale c.1) (issued st run.2)
     `prefix_of` [None; Some 2; Some 4]
  /\ issued st run.2 <> [].
Proof.
  apply (only_tile_scale_changes Stub.shp_to_ee Stub.scripted
           "districts.shp" "output.csv" false 250
           (Stub.start [Failed Stub.too_large_error; Computed Stub.table])
           "districts.shp" [Failed Stub.too_large_error; Computed Stub.table]).
  reflexivity.
Defined.

Lemma needs_tile_scale_4_stateless :
  stateless (World := nat) Stub.shp_to_ee Stub.needs_tile_scale_4.
Proof.
  split.
  - intros p w w'. unfold Stub.shp_to_ee. destruct (String.eqb p "missing.shp"); reflexivity.
  - intros q w w'. unfold Stub.needs_tile_scale_4.
    destruct (decide (tile_scale q = Some 4)); reflexivity.
Defined.

Lemma deterministic_stub_same_output_witness :
  let go := worldpop_zonal_stats Stub.shp_to_ee Stub.needs_tile_scale_4
              "districts.shp" "output.csv" false 100 in
  let st1 := Stub.start 0%nat in
  let st2 := Stub.start 7%nat in
  (go st1).1 = (go st2).1
  /\ map fst (issued st1 (go st1).2) = map fst (issued st2 (go st2).2)
  /\ issued st1 (go st1).2 = issued st2 (go st2).2
  /\ (forall path,
        files st1 !! path = files st2 !! path ->
        files (go st1).2 !! path = files (go st2).2 !! path)
  /\ files (go (go st1).2).2 = files (go st1).2.
Proof.
  apply (deterministic_stub_same_output Stub.shp_to_ee Stub.needs_tile_scale_4
           "districts.shp" "output.csv" false 100
           (Stub.start 0%nat) (Stub.start 7%nat)).
  exact needs_tile_scale_4_stateless.
Defined.

(** C3, as stated, fails: an error raised while loading the polygons is
    not caught; the run raises it to its caller. *)
Lemma polygon_loading_error_propagates :
  let run := worldpop_zonal_stats Stub.shp_to_ee Stub.scripted
               "missing.shp" "output.csv" false 100
               (Stub.start [Computed Stub.table]) in
  run = (Raise Stub.load_error, Stub.start [Computed Stub.table])
  /\ run.1 <> Return tt.
Proof. split; [reflexivity | discriminate]. Qed.


(** ** The further properties on stub worlds *)

Lemma success_ends_ladder_witness :
  let st := Stub.start_with_file tt "output.csv" [Byte.x6f; Byte.x6c; Byte.x64] in
  let run := worldpop_zonal_stats Stub.shp_to_ee Stub.always_computed
               "districts.shp" "output.csv" false 100 st in
  run.1 = Return tt
  /\ length (issued st run.2) = 1%nat
  /\ files run.2 = <["output.csv" := Stub.table]> (files st)
  /\ files run.2 !! "output.csv" = Some Stub.table
  /\ printed st run.2 = take 0 escalation_notices.
Proof.
  apply (success_ends_ladder Stub.shp_to_ee Stub.always_computed
           "districts.shp" "output.csv" false 100
           (Stub.start_with_file tt "output.csv" [Byte.x6f; Byte.x6c; Byte.x64])
           0%nat (attempt "districts.shp" "output.csv" false 100 None) Stub.table).
  reflexivity.
Defined.

Lemma other_paths_untouched_witness :
  let st := Stub.start_with_file tt "notes.txt" [Byte.x6f; Byte.x6c; Byte.x64] in
  files (worldpop_zonal_stats Stub.shp_to_ee Stub.always_computed
           "districts.shp" "output.csv" false 100 st).2 !! "notes.txt"
  = files st !! "notes.txt".
Proof.
  apply (other_paths_untouched Stub.shp_to_ee Stub.always_computed
           "districts.shp" "output.csv" false 100
           (Stub.start_with_file tt "notes.txt" [Byte.x6f; Byte.x6c; Byte.x64])
           "notes.txt").
  discriminate.
Defined.

Lemma failed_run_keeps_files_witness :
  let st := Stub.start_with_file [Failed Stub.quota_error] "output.csv"
              [Byte.x6f; Byte.x6c; Byte.x64] in
  files (worldpop_zonal_stats Stub.shp_to_ee Stub.scripted
           "districts.shp" "output.csv" false 100 st).2
  = files st.
Proof.
  apply (failed_run_keeps_files Stub.shp_to_ee Stub.scripted
           "districts.shp" "output.csv" false 100
           (Stub.start_with_file [Failed Stub.quota_error] "output.csv"
              [Byte.x6f; Byte.x6c; Byte.x64])).
  reflexivity.
Defined.

Lemma earlier_attempts_too_large_witness :
  let st := Stub.start 0%nat in
  exists r ex,
    issued st (worldpop_zonal_stats Stub.shp_to_ee Stub.needs_tile_scale_4
                 "districts.shp" "output.csv" false 100 st).2 !! 1%nat
    = Some (r, Failed ex)
    /\ too_large ex = true.
Proof.
  apply (earlier_attempts_too_large Stub.shp_to_ee Stub.needs_tile_scale_4
           "districts.shp" "output.csv" false 100 (Stub.start 0%nat) 1%nat).
  apply Nat.ltb_lt. reflexivity.
Defined.

Lemma notice_names_next_tile_scale_witness :
  let st := Stub.start 0%nat in
  exists k,
    tile_scale (attempt "districts.shp" "output.csv" false 100 (Some 4)) = Some k
    /\ printed st (worldpop_zonal_stats Stub.shp_to_ee Stub.needs_tile_scale_4
                     "districts.shp" "output.csv" false 100 st).2 !! 1%nat
       = Some ("Computation is too large, trying tileScale=" +:+ pretty k).
Proof.
  apply (notice_names_next_tile_scale Stub.shp_to_ee Stub.needs_tile_scale_4
           "districts.shp" "output.csv" false 100 (Stub.start 0%nat) 1%nat
           (attempt "districts.shp" "output.csv" false 100 (Some 4))
           (Computed Stub.table)).
  reflexivity.
Defined.

Lemma main_reports_elapsed_time_witness :
  let script := module_body Stub.initialize Stub.shp_to_ee Stub.needs_tile_scale_4
                  Stub.clock Z.sub Stub.format_whole in
  let st := Stub.start 0%nat in
  script "__main__" st
  = (Return tt,
     {| world := 5%nat;
        files := {[ main_out_path := Stub.table ]};
        stdout := escalation_notices ++ [elapsed_line Stub.format_whole (4 - 0)];
        calls := [(attempt main_shapefile main_out_path false 100 None,
                   Failed Stub.too_large_error);
                  (attempt main_shapefile main_out_path false 100 (Some 2),
                   Failed Stub.too_large_error);
                  (attempt main_shapefile main_out_path false 100 (Some 4),
                   Computed Stub.table)] |})
  /\ last (printed st (script "__main__" st).2)
     = Some (elapsed_line Stub.format_whole (4 - 0))
  /\ (1 <= length (issued st (script "__main__" st).2) <= 3)%nat
  /\ (forall c, c ∈ issued st (script "__main__" st).2 ->
        in_value_raster c.1 = mosaic (ee_ImageCollection "WorldPop/GP/100m/pop_age_sex")
        /\ out_file_path c.1 = main_out_path
        /\ scale c.1 = 100).
Proof.
  apply (main_reports_elapsed_time Stub.initialize Stub.shp_to_ee
           Stub.needs_tile_scale_4 Stub.clock Z.sub Stub.format_whole
           (Stub.start 0%nat) 0%nat 0 1%nat main_shapefile 1%nat 4 5%nat);
    reflexivity.
Defined.

Lemma raised_script_leaves_no_trace_witness :
  let script := module_body Stub.initialize_fails Stub.shp_to_ee
                  Stub.needs_tile_scale_4 Stub.clock Z.sub Stub.format_whole in
  let st := Stub.start 0%nat in
  printed st (script "__main__" st).2 = []
  /\ issued st (script "__main__" st).2 = []
  /\ files (script "__main__" st).2 = files st
  /\ ((Stub.initialize_fails (world st)).1 = Raise Stub.auth_error
      \/ "__main__" = "__main__"
         /\ exists w : nat, (@Stub.shp_to_ee nat main_shapefile w).1 = Raise Stub.auth_error).
Proof.
  apply (raised_script_leaves_no_trace Stub.initialize_fails Stub.shp_to_ee
           Stub.needs_tile_scale_4 Stub.clock Z.sub Stub.format_whole
           (Stub.start 0%nat) "__main__" Stub.auth_error).
  reflexivity.
Defined.

(** On the stub that needs [tile_scale=4], the entry point prints the two
    notices and then the elapsed time between the two readings of the
    clock. *)
Example main_on_stub :
  stdout (module_body Stub.initialize Stub.shp_to_ee Stub.needs_tile_scale_4
            Stub.clock Z.sub Stub.format_whole "__main__" (Stub.start 0%nat)).2
  = escalation_notices ++ ["time elapsed: 4.00s"].
Proof. reflexivity. Qed.
